(** * Assistant provider adapter: run polling, retry envelope, tool dispatch
      and provider registries.

    Shallow embedding of
      - [implementations/openai_provider.py]  (module [OpenAIProvider]),
      - [processor_2.py]                      (module [Processor2]),
      - [test_lib.py]                         (module [TestLib]).

    The remote assistant service is an opaque collaborator.  It is modelled
    as a deterministic oracle ([Client]) whose replies may depend on the whole
    history of the interaction; every call, every [asyncio.sleep] and every
    [print] is appended to that history ([Log]).  Python exceptions are an
    explicit outcome ([Raise]); the unbounded [while] loop of [start_run] is
    unrolled by a fuel argument and an unfinished loop is the outcome
    [Spinning]. *)

From Stdlib Require Import ZArith Lia.
From stdpp Require Import base option list strings pretty gmap fin_maps.

Open Scope string_scope.
Open Scope list_scope.

(** ** Python values and exceptions *)

(** Exceptions the modelled code meets.  All of them are subclasses of
    Python's [Exception], so an [except Exception] clause catches each. *)
Inductive Exn :=
| APIError (msg : string)
| AttributeError (msg : string)
| RuntimeError (msg : string)
| TypeError (msg : string)
| KeyError (key : string)
| PyException (msg : string)
| PyExceptionFrom (msg : string) (cause : Exn).   (* raise Exception(msg) from cause *)

(** The few dynamic values a tool function may hand back. *)
Inductive PyVal :=
| PyNone
| PyStr (s : string).

(** [str(v)] *)
Definition py_str (v : PyVal) : string :=
  match v with
  | PyNone => "None"
  | PyStr s => s
  end.

(** ** Data model of the remote service *)

Record Message := mkMessage {
  message_id : string;
  role : string;
  content : string
}.

Record Thread := mkThread { thread_id_attr : string }.

Record ToolCall := mkToolCall {
  tool_call_id_attr : string;      (* tool_call.id *)
  function_name : string;          (* tool_call.function.name *)
  function_arguments : string      (* tool_call.function.arguments *)
}.

(** The dict [{"tool_call_id": ..., "output": ...}]. *)
Record ToolOutput := mkToolOutput {
  tool_call_id : string;
  output : string
}.

Record Run := mkRun {
  run_id : string;
  status : string;
  required_action : option (list ToolCall)
}.

(** What a caller may bind to the parameter [thread] of
    [submit_tool_outputs]: the annotation says [Thread], [start_run] passes
    its [thread_id: str]. *)
Inductive ThreadArg :=
| ThreadObj (t : Thread)
| ThreadStr (s : string).

(** ** Interaction history *)

Inductive Event :=
| EvRunsCreate (thread_id assistant_id : string)
| EvRunsRetrieve (thread_id run_id : string)
| EvSubmitToolOutputs (thread_id run_id : string) (tool_outputs : list ToolOutput)
| EvMessagesCreate (thread_id role content : string)
| EvMessagesList (thread_id : string)
| EvSleep (seconds : Z)
| EvPrint (prefix : string) (e : Exn).

Abbreviation Log := (list Event).

Inductive Reply (A : Type) :=
| Replied (a : A)
| Failed (e : Exn).
Arguments Replied {A} a.
Arguments Failed {A} e.

(** [self.client]: one oracle per endpoint the code calls.  The first
    argument is the history up to (not including) the call. *)
Record Client := mkClient {
  runs_create : Log -> string -> string -> Reply Run;
  runs_retrieve : Log -> string -> string -> Reply Run;
  runs_submit_tool_outputs : Log -> string -> string -> list ToolOutput -> Reply Run;
  messages_create : Log -> string -> string -> string -> Reply Message;
  messages_list : Log -> string -> Reply (list Message)
}.

(** ** The effect monad: a store, exceptions and divergence *)

Inductive Outcome (A : Type) :=
| Ret (a : A)
| Raise (e : Exn)
| Spinning.
Arguments Ret {A} a.
Arguments Raise {A} e.
Arguments Spinning {A}.

(** [Eff S A]: a computation over a mutable store [S]. *)
Definition Eff (S A : Type) : Type := S -> Outcome A * S.

Definition ret {S A} (a : A) : Eff S A := fun h => (Ret a, h).

Definition raise {S A} (e : Exn) : Eff S A := fun h => (Raise e, h).

Definition spin {S A} : Eff S A := fun h => (Spinning, h).

Definition bind {S A B} (m : Eff S A) (k : A -> Eff S B) : Eff S B :=
  fun h =>
    match m h with
    | (Ret a, h') => k a h'
    | (Raise e, h') => (Raise e, h')
    | (Spinning, h') => (Spinning, h')
    end.

(** [try: body  except Exception as e: handler e] *)
Definition try_except {S A} (body : Eff S A) (handler : Exn -> Eff S A) : Eff S A :=
  fun h =>
    match body h with
    | (Raise e, h') => handler e h'
    | r => r
    end.

(** Code that talks to the service runs over the interaction history. *)
Abbreviation M := (Eff Log).

(** [abstract_provider.AssistantProcessorConfig].  A registered function
    takes the JSON text of its arguments. *)
Record AssistantProcessorConfig := mkConfig {
  provider : string;
  model : string;
  function_registry : option (gmap string (string -> Outcome PyVal));
  api_key : string;
  config_assistant_id : option string
}.

(** Reading a module-level object, and [d.update(other)] on a shared dict:
    the entries of [other] win. *)
Definition read {S} : Eff S S := fun s => (Ret s, s).

Definition dict_update {V} (other : gmap string V) : Eff (gmap string V) unit :=
  fun d => (Ret tt, other ∪ d).

Declare Scope py_scope.
Delimit Scope py_scope with py.
Notation "'let*' x ':=' c 'in' k" := (bind c (fun x => k))
  (at level 10, x name, c at level 100, k at level 200) : py_scope.
Open Scope py_scope.

(** A call to the service: the reply is computed from the history so far,
    then the call is recorded. *)
Definition call {A} (ev : Event) (reply : Log -> Reply A) : M A :=
  fun h =>
    match reply h with
    | Replied a => (Ret a, h ++ [ev])
    | Failed e => (Raise e, h ++ [ev])
    end.

Definition sleep (seconds : Z) : M unit := fun h => (Ret tt, h ++ [EvSleep seconds]).

Definition print (prefix : string) (e : Exn) : M unit :=
  fun h => (Ret tt, h ++ [EvPrint prefix e]).

(** Truth value of a list, as in [if messages.data:]. *)
Definition truthy {A} (l : list A) : bool :=
  match l with
  | [] => false
  | _ :: _ => true
  end.

(** ** Observations on histories *)

Definition is_messages_list (ev : Event) : bool :=
  match ev with EvMessagesList _ => true | _ => false end.

Definition is_runs_retrieve (ev : Event) : bool :=
  match ev with EvRunsRetrieve _ _ => true | _ => false end.

(** How many events of a kind a history holds. *)
Definition count (p : Event -> bool) (h : Log) : nat := length (List.filter p h).

(** The batches handed to the service, oldest first. *)
Definition submitted_batches (h : Log) : list (list ToolOutput) :=
  flat_map (fun ev => match ev with
                      | EvSubmitToolOutputs _ _ outs => [outs]
                      | _ => []
                      end) h.

(** ** Async generators and [contextlib.asynccontextmanager]

    [retry_manager] is an async generator function wrapped by
    [@asynccontextmanager]; module [Contextlib] below follows
    [__aenter__] and [__aexit__] of the standard library's
    [_AsyncGeneratorContextManager].  A generator object is modelled by the place
    where it is suspended; resuming it gives one of three results. *)

Inductive GenState :=
| GenCreated                   (* not started yet *)
| GenAtYield (retries : Z)     (* suspended at [yield retries] *)
| GenClosed.

Inductive GenStep :=
| Yielded (v : Z)
| StopAsyncIteration
| GenRaised (e : Exn).

Module Contextlib.
Section AsyncGeneratorContextManager.

(** The wrapped generator: [__anext__] and [athrow]. *)
Variable anext : GenState -> M (GenStep * GenState).
Variable athrow : GenState -> Exn -> M (GenStep * GenState).

(** [__aenter__]: the generator has to yield once. *)
Definition aenter (g : GenState) : M (Z * GenState) :=
  let* r := anext g in
  match fst r with
  | Yielded v => ret (v, snd r)
  | StopAsyncIteration => raise (RuntimeError "generator didn't yield")
  | GenRaised e => raise e
  end.

(** [__aexit__(None, None, None)]: the generator has to finish. *)
Definition aexit_normal (g : GenState) : M bool :=
  let* r := anext g in
  match fst r with
  | StopAsyncIteration => ret false
  | Yielded _ => raise (RuntimeError "generator didn't stop")
  | GenRaised e => raise e
  end.

(** [__aexit__(typ, value, traceback)] for an exception [value] raised by
    the body: it is thrown into the generator.  A generator that yields
    again is an error of the protocol ([aclose] is then called on it, which
    has no effect on the history).  When the generator raises, that
    exception reaches the caller of the [async with], either directly or,
    when it is [value] itself, by the [False] answer. *)
Definition aexit_exc (g : GenState) (value : Exn) : M bool :=
  let* r := athrow g value in
  match fst r with
  | StopAsyncIteration => ret true
  | GenRaised exc => raise exc
  | Yielded _ => raise (RuntimeError "generator didn't stop after athrow()")
  end.

(** [async with cm: return body()], followed by [rest] when the context
    manager swallows an exception of the body. *)
Definition async_with_return {A} (body : Z -> M A) (rest : M A) : M A :=
  let* entered := aenter GenCreated in
  fun h =>
    match body (fst entered) h with
    | (Ret a, h') => (let* _ := aexit_normal (snd entered) in ret a) h'
    | (Raise e, h') =>
        (let* suppress := aexit_exc (snd entered) e in
         if suppress : bool then rest else raise e) h'
    | (Spinning, h') => (Spinning, h')
    end.

End AsyncGeneratorContextManager.
End Contextlib.

Module OpenAIProvider.

(** *** [retry_manager] *)

(** The loop head [while retries < max_retries: try: yield retries]. *)
Definition retry_manager_loop (max_retries retries : Z) : GenStep * GenState :=
  if (retries <? max_retries)%Z then (Yielded retries, GenAtYield retries)
  else (StopAsyncIteration, GenClosed).

(** Starting the generator ([retries = 0], then the loop head), or resuming
    it after the [yield] without an exception (the [return] of line 30). *)
Definition retry_manager_anext (max_retries delay : Z) (g : GenState)
  : M (GenStep * GenState) :=
  match g with
  | GenCreated => ret (retry_manager_loop max_retries 0)
  | GenAtYield _ => ret (StopAsyncIteration, GenClosed)
  | GenClosed => ret (StopAsyncIteration, GenClosed)
  end.

(** An exception arrives at the [yield]: the [except Exception as e] arm. *)
Definition retry_manager_athrow (max_retries delay : Z) (g : GenState) (e : Exn)
  : M (GenStep * GenState) :=
  match g with
  | GenAtYield retries =>
      let retries := (retries + 1)%Z in
      if (retries <? max_retries)%Z then
        let* _ := print ("Retry attempt " +:+ pretty retries +:+ ": ") e in
        let* _ := sleep delay in
        ret (retry_manager_loop max_retries retries)
      else
        ret (GenRaised
               (PyExceptionFrom
                  ("Operation failed after " +:+ pretty max_retries +:+ " retries") e),
             GenClosed)
  | GenCreated => ret (GenRaised e, GenClosed)
  | GenClosed => ret (GenRaised e, GenClosed)
  end.

(** [async with retry_manager(max_retries=..., delay=...): return body()] *)
Definition with_retry_manager {A} (max_retries delay : Z)
    (body : Z -> M A) (rest : M A) : M A :=
  Contextlib.async_with_return
    (retry_manager_anext max_retries delay)
    (retry_manager_athrow max_retries delay)
    body rest.

(** [class OpenAIAssistantImpl]: the two attributes [__init__] sets. *)
Record OpenAIAssistantImpl := mkImpl {
  client : Client;
  assistant_id : option string
}.

(** [__init__]; [create_client] stands for [AsyncOpenAI(api_key=...)]. *)
Definition OpenAIAssistantImpl_init
    (create_client : string -> Client) (config : AssistantProcessorConfig)
  : OpenAIAssistantImpl :=
  {| client := create_client (api_key config);
     assistant_id := config_assistant_id config |}.

(** [_try_get_latest_assistant_message].  [next(..., None)] is the first
    message with the role, and a [Message] object is always true in
    [if assistant_message:]. *)
Definition _try_get_latest_assistant_message
    (self : OpenAIAssistantImpl) (thread_id : string) : M Message :=
  let* messages := call (EvMessagesList thread_id)
                        (fun h => messages_list (client self) h thread_id) in
  if truthy messages then
    match List.find (fun msg => bool_decide (role msg = "assistant")) messages with
    | Some assistant_message => ret assistant_message
    | None => raise (PyException "No assistant message found, retrying...")
    end
  else raise (PyException "No assistant message found, retrying...").

(** [get_thread_messages] *)
Definition get_thread_messages
    (self : OpenAIAssistantImpl) (thread_id : string) : M (option (list Message)) :=
  try_except
    (let* messages := call (EvMessagesList thread_id)
                           (fun h => messages_list (client self) h thread_id) in
     if truthy messages then ret (Some messages) else ret None)
    (fun e => let* _ := print "Error getting thread messages: " e in ret None).

(** [get_assistant_response]; [retry_manager]'s default [delay] is 2. *)
Definition get_assistant_response
    (self : OpenAIAssistantImpl) (thread_id : string) (max_retries : Z)
  : M (option Message) :=
  try_except
    (with_retry_manager max_retries 2
       (fun _ => let* m := _try_get_latest_assistant_message self thread_id in
                 ret (Some m))
       (ret None))
    (fun e => let* _ := print "Error getting assistant response: " e in ret None).

(** [execute_function_call]: the body is [pass]. *)
Definition execute_function_call
    (self : OpenAIAssistantImpl) (thread : ThreadArg)
    (function_name arguments : string) : M PyVal :=
  ret PyNone.

(** The [for tool_call in tool_calls] loop of [submit_tool_outputs];
    [tool_outputs] is the list built so far. *)
Fixpoint tool_outputs_loop
    (self : OpenAIAssistantImpl) (thread : ThreadArg)
    (tool_calls : list ToolCall) (tool_outputs : list ToolOutput)
  : M (list ToolOutput) :=
  match tool_calls with
  | [] => ret tool_outputs
  | tool_call :: rest =>
      let function_name := function_name tool_call in
      let arguments := function_arguments tool_call in
      let function_id := tool_call_id_attr tool_call in
      let* function_response :=
        execute_function_call self thread function_name arguments in
      tool_outputs_loop self thread rest
        (tool_outputs ++
           [ {| tool_call_id := function_id;
                output := py_str function_response |} ])
  end.

(** [thread.id] *)
Definition thread_dot_id (thread : ThreadArg) : M string :=
  match thread with
  | ThreadObj t => ret (thread_id_attr t)
  | ThreadStr _ => raise (AttributeError "'str' object has no attribute 'id'")
  end.

(** [submit_tool_outputs] *)
Definition submit_tool_outputs
    (self : OpenAIAssistantImpl) (run : Run) (thread : ThreadArg)
    (tool_calls : list ToolCall) : M Run :=
  let* tool_outputs := tool_outputs_loop self thread tool_calls [] in
  let* tid := thread_dot_id thread in
  call (EvSubmitToolOutputs tid (run_id run) tool_outputs)
       (fun h => runs_submit_tool_outputs (client self) h tid (run_id run) tool_outputs).

(** [run.required_action.submit_tool_outputs.tool_calls] *)
Definition pending_tool_calls (run : Run) : M (list ToolCall) :=
  match required_action run with
  | Some tool_calls => ret tool_calls
  | None =>
      raise (AttributeError
               "'NoneType' object has no attribute 'submit_tool_outputs'")
  end.

(** The [while run.status != "completed"] loop of [start_run]; [fuel]
    bounds the number of iterations that are unrolled. *)
Fixpoint start_run_loop (fuel : nat)
    (self : OpenAIAssistantImpl) (thread_id : string) (run : Run) : M Run :=
  if bool_decide (status run = "completed") then ret run
  else
    match fuel with
    | O => spin
    | S fuel' =>
        let* run := call (EvRunsRetrieve thread_id (run_id run))
                      (fun h => runs_retrieve (client self) h thread_id (run_id run)) in
        let* _ :=
          if bool_decide (status run = "requires_action") then
            let* tool_calls := pending_tool_calls run in
            let* _ := submit_tool_outputs self run (ThreadStr thread_id) tool_calls in
            ret tt
          else ret tt in
        let* _ := sleep 1 in
        start_run_loop fuel' self thread_id run
    end.

(** [start_run] *)
Definition start_run (fuel : nat)
    (self : OpenAIAssistantImpl) (thread_id assistant_id : string)
  : M (option Run) :=
  try_except
    (let* run := call (EvRunsCreate thread_id assistant_id)
                   (fun h => runs_create (client self) h thread_id assistant_id) in
     let* run := start_run_loop fuel self thread_id run in
     ret (Some run))
    (fun e => let* _ := print "Error starting run: " e in ret None).

(** [create_message] *)
Definition create_message (fuel : nat)
    (self : OpenAIAssistantImpl) (thread_id assistant_id content : string)
  : M (option Message) :=
  try_except
    (let* message := call (EvMessagesCreate thread_id "user" content)
                       (fun h => messages_create (client self) h thread_id "user" content) in
     let* _ := start_run fuel self thread_id assistant_id in
     ret (Some message))
    (fun e => let* _ := print "Error creating message: " e in ret None).

End OpenAIProvider.

(** ** [processor_2.py]: the provider facade *)
Module Processor2.

Definition OPENAI : string := "openai".

(** The classes stored in the registry. *)
Inductive ImplClass := OpenAIAssistantImplClass.

(** The module-level dict [processor_implementations] as first bound. *)
Definition processor_implementations : gmap string ImplClass :=
  {[ OPENAI := OpenAIAssistantImplClass ]}.

(** Calling a registered class with the config. *)
Definition instantiate (create_client : string -> Client)
    (cls : ImplClass) (config : AssistantProcessorConfig)
  : OpenAIProvider.OpenAIAssistantImpl :=
  match cls with
  | OpenAIAssistantImplClass =>
      OpenAIProvider.OpenAIAssistantImpl_init create_client config
  end.

(** [get_assistant_processor]; the store is the module-level dict. *)
Definition get_assistant_processor (create_client : string -> Client)
    (config : AssistantProcessorConfig)
  : Eff (gmap string ImplClass) OpenAIProvider.OpenAIAssistantImpl :=
  let* impls := read in
  if bool_decide (impls !! provider config = None) then
    raise (KeyError ("AssistanProcessor for Provider: " +:+ provider config
                       +:+ " is not implemented."))
  else
    match impls !! provider config with
    | Some cls => ret (instantiate create_client cls config)
    | None => raise (KeyError (provider config))
    end.

(** [class AssistantProcessor] and its [__init__]. *)
Record AssistantProcessor := mkProcessor {
  processor : OpenAIProvider.OpenAIAssistantImpl
}.

Definition AssistantProcessor_init (create_client : string -> Client)
    (config : AssistantProcessorConfig)
  : Eff (gmap string ImplClass) AssistantProcessor :=
  let* p := get_assistant_processor create_client config in
  ret {| processor := p |}.

End Processor2.

(** ** [test_lib.py]: the registry with custom processors *)
Module TestLib.

(** Classes a registry may hold: the module's own [AssistantTestImpl] and
    classes supplied by callers.  A caller's class that leaves an abstract
    method of [AssistantInterface] open cannot be instantiated. *)
Inductive ImplClass :=
| AssistantTestImpl
| CustomImpl (name : string) (instantiable : bool).

(** [cls()] *)
Definition instantiate {S} (cls : ImplClass) : Eff S ImplClass :=
  match cls with
  | AssistantTestImpl => ret cls
  | CustomImpl _ true => ret cls
  | CustomImpl name false =>
      raise (TypeError ("Can't instantiate abstract class " +:+ name))
  end.

(** The module-level dict as first bound; the class attribute of
    [AssistantProcessor] is a second name of the same object, which is the
    store of [AssistantProcessor_init]. *)
Definition assistant_processor_implementations : gmap string ImplClass :=
  {[ "openai" := AssistantTestImpl ]}.

Record AssistantProcessor := mkProcessor {
  processor : ImplClass;       (* the class of [self.processor] *)
  processor_model : string
}.

(** [AssistantProcessor.__init__] *)
Definition AssistantProcessor_init
    (provider model : string) (custom_processors : option (gmap string ImplClass))
  : Eff (gmap string ImplClass) AssistantProcessor :=
  let* _ := dict_update (default ∅ custom_processors) in
  let* impls := read in
  match impls !! provider with
  | Some cls =>
      let* p := instantiate cls in
      ret {| processor := p; processor_model := model |}
  | None => raise (KeyError provider)
  end.

End TestLib.

(** ** Vocabulary of the properties *)

(** The exception [_try_get_latest_assistant_message] ends with. *)
Definition not_found : Exn := PyException "No assistant message found, retrying...".

(** The entry the loop of [submit_tool_outputs] appends for one tool call
    ([str(None)] is the text "None"). *)
Definition entry_of (tool_call : ToolCall) : ToolOutput :=
  {| tool_call_id := tool_call_id_attr tool_call; output := py_str PyNone |}.



(** [polled c thread_id h run reports]: from the history [h], with [run] as
    the run object [start_run] holds, the polls [start_run] makes one after
    the other are answered by [reports], in order.  Each poll asks for the id
    of the run object held at that time, and is followed by the sleep of one
    second. *)
Fixpoint polled (c : Client) (thread_id : string) (h : Log) (run : Run)
    (reports : list Run) : Prop :=
  match reports with
  | [] => True
  | report :: rest =>
      runs_retrieve c h thread_id (run_id run) = Replied report
      /\ polled c thread_id
           ((h ++ [EvRunsRetrieve thread_id (run_id run)]) ++ [EvSleep 1]) report rest
  end.


(** ** Scripted services for the scenarios *)
Module Scenarios.

(** A run that is created "queued" and whose n-th poll reports the n-th
    status of [statuses], with [pending] as the tool calls of a
    "requires_action" report; polls beyond the script fail.  Tool outputs are
    accepted, messages are stored, and the thread never lists a message. *)
Definition lifecycle_client (statuses : list string) (pending : list ToolCall) : Client :=
  {| runs_create := fun _ _ _ => Replied (mkRun "run_1" "queued" None);
     runs_retrieve := fun h _ rid =>
       match statuses !! count is_runs_retrieve h with
       | Some st =>
           Replied (mkRun rid st
                      (if bool_decide (st = "requires_action") then Some pending
                       else None))
       | None => Failed (APIError "connection lost")
       end;
     runs_submit_tool_outputs := fun _ _ rid _ => Replied (mkRun rid "in_progress" None);
     messages_create := fun _ _ r c => Replied (mkMessage "msg_1" r c);
     messages_list := fun _ _ => Replied [] |}.

(** A run that every poll reports in the same status [st]. *)
Definition stuck_client (st : string) : Client :=
  {| runs_create := fun _ _ _ => Replied (mkRun "run_1" "queued" None);
     runs_retrieve := fun _ _ rid => Replied (mkRun rid st None);
     runs_submit_tool_outputs := fun _ _ rid _ => Replied (mkRun rid "in_progress" None);
     messages_create := fun _ _ r c => Replied (mkMessage "msg_1" r c);
     messages_list := fun _ _ => Replied [] |}.

(** Messages can be posted and listed, runs cannot be created. *)
Definition no_runs_client (listed : list Message) : Client :=
  {| runs_create := fun _ _ _ => Failed (APIError "runs unavailable");
     runs_retrieve := fun _ _ _ => Failed (APIError "runs unavailable");
     runs_submit_tool_outputs := fun _ _ _ _ => Failed (APIError "runs unavailable");
     messages_create := fun _ _ r c => Replied (mkMessage "msg_1" r c);
     messages_list := fun _ _ => Replied listed |}.

(** The listing endpoint is down. *)
Definition no_listing_client : Client :=
  {| runs_create := fun _ _ _ => Failed (APIError "runs unavailable");
     runs_retrieve := fun _ _ _ => Failed (APIError "runs unavailable");
     runs_submit_tool_outputs := fun _ _ _ _ => Failed (APIError "runs unavailable");
     messages_create := fun _ _ r c => Replied (mkMessage "msg_1" r c);
     messages_list := fun _ _ => Failed (APIError "listing unavailable") |}.

Definition impl (c : Client) : OpenAIProvider.OpenAIAssistantImpl :=
  OpenAIProvider.mkImpl c None.

Definition greeting : Message := mkMessage "msg_3" "user" "hello".
Definition answer_new : Message := mkMessage "msg_2" "assistant" "hi, how can I help?".
Definition answer_old : Message := mkMessage "msg_1" "assistant" "welcome".

Definition one_tool_call : list ToolCall := [mkToolCall "call_1" "get_weather" "{}"].

Definition config_for (name : string) : AssistantProcessorConfig :=
  {| provider := name; model := "gpt-4o"; function_registry := Some ∅;
     api_key := "sk-test"; config_assistant_id := None |}.

(** [AsyncOpenAI(api_key=...)] for the facade scenarios. *)
Definition offline (key : string) : Client := no_listing_client.

(** A caller's own processor class and the mapping that registers it. *)
Definition MockImpl : TestLib.ImplClass := TestLib.CustomImpl "MockImpl" true.

Definition custom_mock : gmap string TestLib.ImplClass := {[ "mock" := MockImpl ]}.

(** The shared registry after
    [AssistantProcessor("openai", "gpt-4o", custom_processors=custom_mock)]. *)
Definition registry_after_custom : gmap string TestLib.ImplClass :=
  snd (TestLib.AssistantProcessor_init "openai" "gpt-4o" (Some custom_mock)
         TestLib.assistant_processor_implementations).

End Scenarios.

(** ** Thread operations of [implementations/openai_provider.py] *)
Module OpenAIThreads.
Import OpenAIProvider.






(** The two endpoints behind [self.client.beta.threads] and their history. *)
Inductive ThreadEvent :=
| EvThreadsCreate
| EvThreadsRetrieve (thread_id : string)
| EvThreadsPrint (prefix : string) (e : Exn).

Record ThreadsApi := mkThreadsApi {
  threads_create : list ThreadEvent -> Reply Thread;
  threads_retrieve : list ThreadEvent -> string -> Reply Thread
}.

Definition thread_call {A} (ev : ThreadEvent) (reply : list ThreadEvent -> Reply A)
  : Eff (list ThreadEvent) A :=
  fun h =>
    match reply h with
    | Replied a => (Ret a, h ++ [ev])
    | Failed e => (Raise e, h ++ [ev])
    end.

Definition thread_print (prefix : string) (e : Exn) : Eff (list ThreadEvent) unit :=
  fun h => (Ret tt, h ++ [EvThreadsPrint prefix e]).

(** [get_or_create_thread]; [threads] stands for [self.client.beta.threads]. *)
Definition get_or_create_thread (threads : ThreadsApi) (thread_id : option string)
  : Eff (list ThreadEvent) (option Thread) :=
  try_except
    (match thread_id with
     | None =>
         let* t := thread_call EvThreadsCreate (threads_create threads) in
         ret (Some t)
     | Some id =>
         let* t := thread_call (EvThreadsRetrieve id)
                     (fun h => threads_retrieve threads h id) in
         ret (Some t)
     end)
    (fun e => let* _ := thread_print "Error in get_or_create_thread: " e in ret None).

End OpenAIThreads.

(** ** [AssistantTestImpl] and [AssistantProcessor.process] of [test_lib.py] *)
Module TestLibProcess.

(** [AssistantTestImpl.format_response] *)
Definition format_response (text : string) : string := "[Formatted] " +:+ text.

(** [AssistantTestImpl.process] *)
Definition process (text : string) : string :=
  format_response ("AssistantTestImpl: " +:+ text).

(** [AssistantProcessor.process]: the call goes to [self.processor];
    [custom_process] is the method of a caller's class, by class name. *)
Definition AssistantProcessor_process
    (custom_process : string -> string -> Outcome string)
    (self : TestLib.AssistantProcessor) (text : string) : Outcome string :=
  match TestLib.processor self with
  | TestLib.AssistantTestImpl => Ret (process text)
  | TestLib.CustomImpl name _ => custom_process name text
  end.

End TestLibProcess.

(** ** More observations on histories *)

Definition is_sleep_event (ev : Event) : bool :=
  match ev with EvSleep _ => true | _ => false end.

Definition is_runs_create (ev : Event) : bool :=
  match ev with EvRunsCreate _ _ => true | _ => false end.

(** The messages posted to the service, oldest first: thread, role, text. *)
Definition posted_messages (h : Log) : list (string * string * string) :=
  flat_map (fun ev => match ev with
                      | EvMessagesCreate thread_id role text => [(thread_id, role, text)]
                      | _ => []
                      end) h.

(** The part of a history that [n] uneventful polls of [start_run] leave:
    each poll is followed by a sleep of one second. *)
Definition poll_rounds (thread_id : string) (rids : list string) : Log :=
  flat_map (fun rid => [EvRunsRetrieve thread_id rid; EvSleep 1]) rids.




(** First-assistant search, as [_try_get_latest_assistant_message] does it. *)
Definition first_assistant (msgs : list Message) : option Message :=
  List.find (fun msg => bool_decide (role msg = "assistant")) msgs.



(** A thread service that knows one thread, "thread_1". *)
Definition one_thread_api : OpenAIThreads.ThreadsApi :=
  {| OpenAIThreads.threads_create := fun _ => Replied (mkThread "thread_new");
     OpenAIThreads.threads_retrieve := fun _ id =>
       if bool_decide (id = "thread_1") then Replied (mkThread id)
       else Failed (APIError "No thread found") |}.

(** A lookup that needs no service, for the retry envelope. *)
Definition failing_body (e : Exn) (attempt : Z) : M Message := raise e.

(** * Properties *)

(** ** Evaluation helpers *)

Ltac run_eff :=
  unfold bind, call, ret, raise, spin, try_except, print, sleep, read, dict_update;
  simpl.

Lemma count_app p (h1 h2 : Log) : count p (h1 ++ h2) = count p h1 + count p h2.
Proof. unfold count. by rewrite List.filter_app, length_app. Qed.

Lemma submitted_batches_app (h1 h2 : Log) :
  submitted_batches (h1 ++ h2) = submitted_batches h1 ++ submitted_batches h2.
Proof. unfold submitted_batches. apply flat_map_app. Qed.

Section MessageLookup.
Import OpenAIProvider.

Lemma find_assistant_first (pre post : list Message) (m : Message) :
  Forall (fun x => role x ≠ "assistant") pre ->
  role m = "assistant" ->
  List.find (fun msg => bool_decide (role msg = "assistant")) (pre ++ m :: post) = Some m.
Proof.
  intros Hpre Hm. induction Hpre as [|x pre Hx _ IH]; simpl.
  - by rewrite bool_decide_eq_true_2.
  - by rewrite bool_decide_eq_false_2.
Qed.

Lemma find_assistant_none (msgs : list Message) :
  Forall (fun x => role x ≠ "assistant") msgs ->
  List.find (fun msg => bool_decide (role msg = "assistant")) msgs = None.
Proof.
  induction 1 as [|x l Hx _ IH]; simpl; [done|].
  by rewrite bool_decide_eq_false_2.
Qed.

(** C6.  When the service lists [msgs] for the thread,
    [_try_get_latest_assistant_message] returns the first message of [msgs],
    in the listed order, whose role is "assistant"; when no listed message has
    that role (the empty list included) it raises the "No assistant message
    found" exception and returns no message. *)
Theorem latest_assistant_message_is_first_assistant
    (self : OpenAIAssistantImpl) (thread_id : string) (h : Log) (msgs : list Message) :
  messages_list (client self) h thread_id = Replied msgs ->
  (forall pre m post,
      msgs = pre ++ m :: post ->
      Forall (fun x => role x ≠ "assistant") pre ->
      role m = "assistant" ->
      fst (_try_get_latest_assistant_message self thread_id h) = Ret m)
  /\ (Forall (fun x => role x ≠ "assistant") msgs ->
      fst (_try_get_latest_assistant_message self thread_id h) = Raise not_found).
Proof.
  intros Hlist. unfold _try_get_latest_assistant_message. run_eff. rewrite Hlist.
  split.
  - intros pre m post -> Hpre Hm.
    rewrite (find_assistant_first pre post m Hpre Hm).
    by destruct pre.
  - intros Hnone. rewrite (find_assistant_none msgs Hnone).
    by destruct msgs.
Qed.

(** C9.  [get_thread_messages] returns [None] when the listing succeeds with
    no message at all, and it returns [None] when the listing fails: the two
    cases give the caller the same value. *)
Theorem get_thread_messages_empty_as_failure
    (self : OpenAIAssistantImpl) (thread_id : string) (h : Log) :
  (messages_list (client self) h thread_id = Replied [] ->
   fst (get_thread_messages self thread_id h) = Ret None)
  /\ (forall e, messages_list (client self) h thread_id = Failed e ->
      fst (get_thread_messages self thread_id h) = Ret None).
Proof.
  unfold get_thread_messages. run_eff.
  split; [intros Hlist | intros e Hlist]; by rewrite Hlist.
Qed.

End MessageLookup.

Section ToolDispatch.
Import OpenAIProvider.

(** C3.  [execute_function_call] never raises, but whatever the function
    name and whatever registry the processor was configured with, it hands
    back [None], not a text: no error message is produced for a missing
    function, and the entry [submit_tool_outputs] builds for such a call
    carries the text "None". *)
Theorem execute_function_call_returns_none
    (create_client : string -> Client) (config : AssistantProcessorConfig)
    (thread : ThreadArg) (function_name arguments : string) (h : Log) :
  execute_function_call (OpenAIAssistantImpl_init create_client config)
    thread function_name arguments h = (Ret PyNone, h)
  /\ (forall text, PyNone ≠ PyStr text)
  /\ (forall id,
      tool_outputs_loop (OpenAIAssistantImpl_init create_client config) thread
        [mkToolCall id function_name arguments] [] h
      = (Ret [ {| tool_call_id := id; output := "None" |} ], h)).
Proof. split; [reflexivity | split; [discriminate | reflexivity]]. Qed.

Lemma tool_outputs_loop_appends self thread tool_calls acc h :
  tool_outputs_loop self thread tool_calls acc h
  = (Ret (acc ++ map entry_of tool_calls), h).
Proof.
  revert acc. induction tool_calls as [|tc rest IH]; intros acc; simpl.
  - by rewrite app_nil_r.
  - unfold bind, execute_function_call, ret. simpl.
    rewrite IH. by rewrite <- app_assoc.
Qed.

(** C2.  For a batch of K tool calls, the loop of [submit_tool_outputs]
    builds exactly K entries, the i-th one carrying the id of the i-th tool
    call, without touching the service; the only call to the service that
    [submit_tool_outputs] then makes is the submission of that complete
    list. *)
Theorem submit_tool_outputs_one_entry_per_call
    (self : OpenAIAssistantImpl) (run : Run) (thread : ThreadArg)
    (tool_calls : list ToolCall) (h : Log) :
  exists tool_outputs,
    tool_outputs_loop self thread tool_calls [] h = (Ret tool_outputs, h)
    /\ length tool_outputs = length tool_calls
    /\ map tool_call_id tool_outputs = map tool_call_id_attr tool_calls
    /\ snd (submit_tool_outputs self run thread tool_calls h)
       = h ++ match thread with
              | ThreadObj t =>
                  [EvSubmitToolOutputs (thread_id_attr t) (run_id run) tool_outputs]
              | ThreadStr _ => []
              end.
Proof.
  exists (map entry_of tool_calls).
  split; [apply (tool_outputs_loop_appends self thread tool_calls [] h)|].
  split; [by rewrite length_map|].
  split; [by rewrite <- list_fmap_compose|].
  unfold submit_tool_outputs, bind.
  rewrite (tool_outputs_loop_appends self thread tool_calls [] h). simpl.
  destruct thread as [t|s]; simpl.
  - unfold call. by destruct (runs_submit_tool_outputs _ _ _ _ _).
  - by rewrite app_nil_r.
Qed.

End ToolDispatch.

Section MessageLookupWitnesses.
Import OpenAIProvider Scenarios.

Lemma latest_assistant_message_is_first_assistant_witness :
  fst (_try_get_latest_assistant_message
         (impl (no_runs_client [greeting; answer_new; answer_old])) "thread_1" [])
  = Ret answer_new
  /\ fst (_try_get_latest_assistant_message
            (impl (no_runs_client [greeting])) "thread_1" [])
     = Raise not_found.
Proof.
  split.
  - apply (proj1 (latest_assistant_message_is_first_assistant
                    (impl (no_runs_client [greeting; answer_new; answer_old]))
                    "thread_1" [] [greeting; answer_new; answer_old] eq_refl)
             [greeting] answer_new [answer_old]).
    + reflexivity.
    + repeat constructor. discriminate.
    + reflexivity.
  - apply (proj2 (latest_assistant_message_is_first_assistant
                    (impl (no_runs_client [greeting])) "thread_1" [] [greeting] eq_refl)).
    repeat constructor. discriminate.
Defined.

Lemma get_thread_messages_empty_as_failure_witness :
  fst (get_thread_messages (impl (no_runs_client [])) "thread_1" []) = Ret None
  /\ fst (get_thread_messages (impl no_listing_client) "thread_1" []) = Ret None.
Proof.
  split.
  - apply (proj1 (get_thread_messages_empty_as_failure
                    (impl (no_runs_client [])) "thread_1" [])).
    reflexivity.
  - apply (proj2 (get_thread_messages_empty_as_failure
                    (impl no_listing_client) "thread_1" [])
             (APIError "listing unavailable")).
    reflexivity.
Defined.

End MessageLookupWitnesses.

Section RetryEnvelope.
Import OpenAIProvider Scenarios.

(** C1.  [get_assistant_response] runs the wrapped lookup once when
    [max_retries] is positive and not at all otherwise, whatever the lookup
    answers: the body of an [async with] block is not run again when the
    generator behind the context manager yields a second time.  With
    [max_retries = 3] and a thread that never lists an assistant message, one
    attempt is made, the generator sleeps once, and the protocol error
    "generator didn't stop after athrow()" is what [get_assistant_response]
    catches before it returns [None]. *)
Theorem get_assistant_response_single_attempt :
  (forall self thread_id max_retries h,
      count is_messages_list (snd (get_assistant_response self thread_id max_retries h))
      = count is_messages_list h + (if (0 <? max_retries)%Z then 1 else 0))
  /\ get_assistant_response (impl (lifecycle_client [] [])) "thread_1" 3 []
     = (Ret None,
        [ EvMessagesList "thread_1";
          EvPrint "Retry attempt 1: " not_found;
          EvSleep 2;
          EvPrint "Error getting assistant response: "
                  (RuntimeError "generator didn't stop after athrow()") ]).
Proof.
  split; [|reflexivity].
  intros self thread_id max_retries h.
  unfold get_assistant_response, with_retry_manager, Contextlib.async_with_return,
    Contextlib.aenter, Contextlib.aexit_normal, Contextlib.aexit_exc,
    retry_manager_anext, retry_manager_athrow, retry_manager_loop,
    _try_get_latest_assistant_message.
  run_eff.
  destruct (0 <? max_retries)%Z; simpl.
  - destruct (messages_list (client self) h thread_id) as [msgs|e]; simpl.
    + destruct (truthy msgs); simpl;
        [destruct (List.find _ msgs); simpl|];
        try (destruct (0 + 1 <? max_retries)%Z; simpl);
        rewrite ?count_app; unfold count; simpl; lia.
    + destruct (0 + 1 <? max_retries)%Z; simpl;
        rewrite ?count_app; unfold count; simpl; lia.
  - rewrite count_app. unfold count. simpl. lia.
Qed.

End RetryEnvelope.

Section RunPolling.
Import OpenAIProvider Scenarios.

Lemma submit_with_thread_id_raises self run (s : string) tool_calls h :
  submit_tool_outputs self run (ThreadStr s) tool_calls h
  = (Raise (AttributeError "'str' object has no attribute 'id'"), h).
Proof.
  unfold submit_tool_outputs, bind.
  by rewrite (tool_outputs_loop_appends self (ThreadStr s) tool_calls [] h).
Qed.

Ltac same_batches :=
  simpl; rewrite ?submitted_batches_app; simpl; rewrite ?app_nil_r; try done.

Lemma start_run_loop_never_submits fuel self thread_id run h :
  submitted_batches (snd (start_run_loop fuel self thread_id run h))
  = submitted_batches h.
Proof.
  revert run h. induction fuel as [|fuel IH]; intros run h; simpl.
  - by destruct (bool_decide (status run = "completed")).
  - destruct (bool_decide (status run = "completed")); [done|].
    unfold bind at 1. unfold call.
    destruct (runs_retrieve (client self) h thread_id (run_id run)) as [run'|e];
      [|same_batches].
    unfold bind at 1.
    destruct (bool_decide (status run' = "requires_action")).
    + unfold bind at 1. unfold pending_tool_calls.
      destruct (required_action run') as [tool_calls|]; unfold ret, raise.
      * unfold bind at 1. rewrite submit_with_thread_id_raises. same_batches.
      * same_batches.
    + unfold ret at 1. unfold bind at 1. unfold sleep.
      rewrite IH. same_batches.
Qed.

(** C4.  [start_run] hands its [thread_id] string to [submit_tool_outputs]
    where a thread object is expected, so [thread.id] raises before anything
    is submitted: no run of [start_run] ever adds a batch of tool outputs to
    the history.  On the run polled as queued, in_progress, requires_action
    (one tool call pending), in_progress, completed, the third poll ends
    [start_run] with [None]; no batch is submitted and the completed run is
    never fetched. *)
Theorem start_run_never_submits_tool_outputs :
  (forall fuel self thread_id assistant_id h,
      submitted_batches (snd (start_run fuel self thread_id assistant_id h))
      = submitted_batches h)
  /\ (forall fuel,
      start_run (3 + fuel)
        (impl (lifecycle_client
                 ["queued"; "in_progress"; "requires_action"; "in_progress"; "completed"]
                 one_tool_call))
        "thread_1" "asst_1" []
      = (Ret None,
         [ EvRunsCreate "thread_1" "asst_1";
           EvRunsRetrieve "thread_1" "run_1"; EvSleep 1;
           EvRunsRetrieve "thread_1" "run_1"; EvSleep 1;
           EvRunsRetrieve "thread_1" "run_1";
           EvPrint "Error starting run: "
                   (AttributeError "'str' object has no attribute 'id'") ])).
Proof.
  split; [|intros fuel; reflexivity].
  intros fuel self thread_id assistant_id h.
  unfold start_run, try_except, bind at 1. unfold call.
  destruct (runs_create (client self) h thread_id assistant_id) as [run|e].
  - unfold bind.
    pose proof (start_run_loop_never_submits fuel self thread_id run
                  (h ++ [EvRunsCreate thread_id assistant_id])) as Hloop.
    destruct (start_run_loop fuel self thread_id run _) as [[r| e |] h'];
      simpl in *; unfold print, ret; simpl;
      rewrite ?submitted_batches_app; rewrite Hloop; same_batches.
  - unfold print, ret, bind. same_batches.
Qed.


Lemma start_run_loop_spins fuel self thread_id run h :
  (forall h' rid, exists run',
      runs_retrieve (client self) h' thread_id rid = Replied run'
      /\ status run' ≠ "completed" /\ status run' ≠ "requires_action") ->
  status run ≠ "completed" ->
  exists h',
    start_run_loop fuel self thread_id run h = (Spinning, h')
    /\ count is_runs_retrieve h' = count is_runs_retrieve h + fuel.
Proof.
  intros Hpoll. revert run h.
  induction fuel as [|fuel IH]; intros run h Hrun; simpl;
    rewrite (bool_decide_eq_false_2 _ Hrun).
  - exists h. split; [done | lia].
  - unfold bind at 1. unfold call.
    destruct (Hpoll h (run_id run)) as (run' & -> & Hnc & Hna).
    unfold bind at 1. rewrite (bool_decide_eq_false_2 _ Hna).
    unfold ret at 1. unfold bind at 1. unfold sleep.
    destruct (IH run' ((h ++ [EvRunsRetrieve thread_id (run_id run)]) ++ [EvSleep 1]) Hnc)
      as (h' & -> & Hcount).
    exists h'. split; [done|].
    rewrite Hcount, !count_app. unfold count. simpl. lia.
Qed.

Lemma start_run_never_raises fuel self thread_id assistant_id h e :
  fst (start_run fuel self thread_id assistant_id h) ≠ Raise e.
Proof.
  unfold start_run, try_except.
  destruct (bind _ _ h) as [[r|e'|] h']; simpl; discriminate.
Qed.

(** One iteration of the loop of [start_run], spelled out. *)
Lemma start_run_loop_step fuel self thread_id run h :
  status run ≠ "completed" ->
  start_run_loop (S fuel) self thread_id run h
  = match runs_retrieve (client self) h thread_id (run_id run) with
    | Failed e => (Raise e, h ++ [EvRunsRetrieve thread_id (run_id run)])
    | Replied run' =>
        if bool_decide (status run' = "requires_action") then
          (Raise (AttributeError
                    (match required_action run' with
                     | Some _ => "'str' object has no attribute 'id'"
                     | None => "'NoneType' object has no attribute 'submit_tool_outputs'"
                     end)),
           h ++ [EvRunsRetrieve thread_id (run_id run)])
        else
          start_run_loop fuel self thread_id run'
            ((h ++ [EvRunsRetrieve thread_id (run_id run)]) ++ [EvSleep 1])
    end.
Proof.
  intros Hst. simpl. rewrite (bool_decide_eq_false_2 _ Hst).
  unfold bind at 1. unfold call.
  destruct (runs_retrieve (client self) h thread_id (run_id run)) as [run'|e]; [|done].
  unfold bind at 1.
  destruct (bool_decide (status run' = "requires_action")).
  - unfold bind at 1. unfold pending_tool_calls.
    destruct (required_action run') as [tool_calls|]; unfold ret, raise; [|done].
    unfold bind at 1. by rewrite submit_with_thread_id_raises.
  - unfold ret at 1. unfold bind at 1. by unfold sleep.
Qed.

(** [start_run] around its loop, spelled out. *)
Lemma start_run_unfold fuel self thread_id assistant_id h :
  start_run fuel self thread_id assistant_id h
  = match runs_create (client self) h thread_id assistant_id with
    | Failed e =>
        (Ret None,
         (h ++ [EvRunsCreate thread_id assistant_id]) ++ [EvPrint "Error starting run: " e])
    | Replied run =>
        match start_run_loop fuel self thread_id run
                (h ++ [EvRunsCreate thread_id assistant_id]) with
        | (Ret r, h') => (Ret (Some r), h')
        | (Raise e, h') => (Ret None, h' ++ [EvPrint "Error starting run: " e])
        | (Spinning, h') => (Spinning, h')
        end
    end.
Proof.
  unfold start_run, try_except, bind, call, print, ret.
  destruct (runs_create (client self) h thread_id assistant_id) as [run|e]; [|done].
  by destruct (start_run_loop fuel self thread_id run _) as [[r|e|] h'].
Qed.

(** [create_message] around [start_run], spelled out. *)
Lemma create_message_unfold fuel self thread_id assistant_id content h :
  create_message fuel self thread_id assistant_id content h
  = match messages_create (client self) h thread_id "user" content with
    | Failed e =>
        (Ret None,
         (h ++ [EvMessagesCreate thread_id "user" content])
           ++ [EvPrint "Error creating message: " e])
    | Replied message =>
        match start_run fuel self thread_id assistant_id
                (h ++ [EvMessagesCreate thread_id "user" content]) with
        | (Ret _, h') => (Ret (Some message), h')
        | (Raise e, h') => (Ret None, h' ++ [EvPrint "Error creating message: " e])
        | (Spinning, h') => (Spinning, h')
        end
    end.
Proof.
  unfold create_message, try_except, bind, call, print, ret.
  destruct (messages_create (client self) h thread_id "user" content) as [m|e]; [|done].
  by destruct (start_run fuel self thread_id assistant_id _) as [[r|e|] h'].
Qed.







(** C10 (as the code has it).  Once the user message has been created,
    [create_message] returns that message whenever the [start_run] call it
    makes returns, whatever it returns: the result of [start_run] is dropped.
    In particular the message is returned when [start_run] returns [None]
    for a run that failed.  While [start_run] is still in its loop,
    [create_message] has not returned either. *)
Theorem create_message_returns_message_whatever_the_run
    (fuel : nat) (self : OpenAIAssistantImpl)
    (thread_id assistant_id content : string) (h : Log) (message : Message) :
  messages_create (client self) h thread_id "user" content = Replied message ->
  (fst (start_run fuel self thread_id assistant_id
          (h ++ [EvMessagesCreate thread_id "user" content])) ≠ Spinning ->
   create_message fuel self thread_id assistant_id content h
   = (Ret (Some message),
      snd (start_run fuel self thread_id assistant_id
             (h ++ [EvMessagesCreate thread_id "user" content]))))
  /\ (forall h',
      start_run fuel self thread_id assistant_id
        (h ++ [EvMessagesCreate thread_id "user" content]) = (Ret None, h') ->
      create_message fuel self thread_id assistant_id content h
      = (Ret (Some message), h'))
  /\ (fst (start_run fuel self thread_id assistant_id
             (h ++ [EvMessagesCreate thread_id "user" content])) = Spinning ->
      fst (create_message fuel self thread_id assistant_id content h) = Spinning).
Proof.
  intros Hcreate.
  rewrite create_message_unfold, Hcreate.
  pose proof (start_run_never_raises fuel self thread_id assistant_id
                (h ++ [EvMessagesCreate thread_id "user" content])) as Hnr.
  destruct (start_run fuel self thread_id assistant_id _) as [[r|e|] h'];
    simpl in *; (split; [|split]); try done.
  - by intros h0 [= _ <-].
  - by destruct (Hnr e).
Qed.

Lemma create_message_returns_message_whatever_the_run_witness :
  fst (start_run 0 (impl (no_runs_client [])) "thread_1" "asst_1"
         [EvMessagesCreate "thread_1" "user" "hello"]) = Ret None
  /\ fst (create_message 0 (impl (no_runs_client [])) "thread_1" "asst_1" "hello" [])
     = Ret (Some (mkMessage "msg_1" "user" "hello"))
  /\ create_message 0 (impl (no_runs_client [])) "thread_1" "asst_1" "hello" []
     = (Ret (Some (mkMessage "msg_1" "user" "hello")),
        [ EvMessagesCreate "thread_1" "user" "hello";
          EvRunsCreate "thread_1" "asst_1";
          EvPrint "Error starting run: " (APIError "runs unavailable") ])
  /\ fst (create_message 2 (impl (stuck_client "failed")) "thread_1" "asst_1" "hello" [])
     = Spinning.
Proof.
  split; [reflexivity|]. split; [|split].
  - rewrite (proj1 (create_message_returns_message_whatever_the_run
                      0 (impl (no_runs_client [])) "thread_1" "asst_1" "hello" []
                      (mkMessage "msg_1" "user" "hello") eq_refl)).
    + reflexivity.
    + discriminate.
  - apply (proj1 (proj2 (create_message_returns_message_whatever_the_run
                           0 (impl (no_runs_client [])) "thread_1" "asst_1" "hello" []
                           (mkMessage "msg_1" "user" "hello") eq_refl))).
    reflexivity.
  - apply (proj2 (proj2 (create_message_returns_message_whatever_the_run
                           2 (impl (stuck_client "failed")) "thread_1" "asst_1" "hello" []
                           (mkMessage "msg_1" "user" "hello") eq_refl))).
    reflexivity.
Defined.

(** C10 (as worded) fails: on a run that every poll reports "failed" the
    user message is created, and [create_message] has not returned after any
    number of iterations of the polling loop. *)
Lemma create_message_waits_for_the_run :
  messages_create (stuck_client "failed") [] "thread_1" "user" "hello"
  = Replied (mkMessage "msg_1" "user" "hello")
  /\ forall fuel,
       fst (create_message fuel (impl (stuck_client "failed"))
              "thread_1" "asst_1" "hello" [])
       = Spinning.
Proof.
  split; [reflexivity|].
  intros fuel. rewrite create_message_unfold, start_run_unfold. simpl.
  destruct (start_run_loop_spins fuel (impl (stuck_client "failed")) "thread_1"
              (mkRun "run_1" "queued" None)
              [EvMessagesCreate "thread_1" "user" "hello";
               EvRunsCreate "thread_1" "asst_1"])
    as (h' & Hloop & _).
  - intros h rid. exists (mkRun rid "failed" None).
    split; [reflexivity | split; discriminate].
  - discriminate.
  - by rewrite Hloop.
Qed.

End RunPolling.

Section ProviderRegistries.
Import Scenarios.

(** C7 (as the code has it).  For a provider name the registry does not
    hold, [get_assistant_processor] raises [KeyError] with the text
    "AssistanProcessor for Provider: <name> is not implemented." and leaves
    the registry as it was; [AssistantProcessor.__init__] of [processor_2.py]
    lets that exception through to its caller, and the constructor of
    [test_lib.py] raises the [KeyError] of the dict lookup itself. *)
Theorem unknown_provider_raises_key_error :
  (forall create_client config (impls : gmap string Processor2.ImplClass),
      impls !! provider config = None ->
      Processor2.get_assistant_processor create_client config impls
      = (Raise (KeyError ("AssistanProcessor for Provider: " +:+ provider config
                            +:+ " is not implemented.")), impls)
      /\ Processor2.AssistantProcessor_init create_client config impls
         = (Raise (KeyError ("AssistanProcessor for Provider: " +:+ provider config
                               +:+ " is not implemented.")), impls))
  /\ (forall name model custom (impls : gmap string TestLib.ImplClass),
      (default ∅ custom ∪ impls) !! name = None ->
      fst (TestLib.AssistantProcessor_init name model custom impls)
      = Raise (KeyError name)).
Proof.
  split.
  - intros create_client config impls Hnone.
    unfold Processor2.AssistantProcessor_init, Processor2.get_assistant_processor.
    run_eff. by rewrite bool_decide_eq_true_2.
  - intros name model custom impls Hnone.
    unfold TestLib.AssistantProcessor_init. run_eff. by rewrite Hnone.
Qed.

Lemma unknown_provider_raises_key_error_witness :
  Processor2.AssistantProcessor_init offline (config_for "anthropic")
    Processor2.processor_implementations
  = (Raise (KeyError "AssistanProcessor for Provider: anthropic is not implemented."),
     Processor2.processor_implementations)
  /\ fst (TestLib.AssistantProcessor_init "anthropic" "gpt-4o" None
            TestLib.assistant_processor_implementations)
     = Raise (KeyError "anthropic").
Proof.
  split.
  - apply (proj1 unknown_provider_raises_key_error offline (config_for "anthropic")
             Processor2.processor_implementations).
    reflexivity.
  - apply (proj2 unknown_provider_raises_key_error "anthropic" "gpt-4o" None
             TestLib.assistant_processor_implementations).
    reflexivity.
Defined.

(** C7 (as worded) fails: "anthropic" is not registered, and constructing
    the facade for it ends in an exception at the caller, not in a value. *)
Lemma unknown_provider_exception_reaches_caller :
  Processor2.processor_implementations !! "anthropic" = None
  /\ fst (Processor2.AssistantProcessor_init offline (config_for "anthropic")
            Processor2.processor_implementations)
     = Raise (KeyError "AssistanProcessor for Provider: anthropic is not implemented.")
  /\ fst (TestLib.AssistantProcessor_init "anthropic" "gpt-4o" None
            TestLib.assistant_processor_implementations)
     = Raise (KeyError "anthropic").
Proof. repeat split; reflexivity. Qed.

(** C8 (as the code has it).  The constructor of [test_lib.py] updates the
    shared registry in place with the caller's custom entries, whether or not
    the construction then succeeds, so every later construction sees them;
    the constructor of [processor_2.py] leaves its registry as it was. *)
Theorem construction_updates_shared_registry :
  (forall name model custom (impls : gmap string TestLib.ImplClass),
      snd (TestLib.AssistantProcessor_init name model custom impls)
      = default ∅ custom ∪ impls)
  /\ (forall create_client config (impls : gmap string Processor2.ImplClass),
      snd (Processor2.AssistantProcessor_init create_client config impls) = impls).
Proof.
  split.
  - intros name model custom impls.
    unfold TestLib.AssistantProcessor_init. run_eff.
    destruct ((default ∅ custom ∪ impls) !! name) as [cls|]; [|done].
    by destruct cls as [|cname []].
  - intros create_client config impls.
    unfold Processor2.AssistantProcessor_init, Processor2.get_assistant_processor.
    run_eff.
    case_bool_decide; [done|].
    by destruct (impls !! provider config).
Qed.

(** C8 (as worded) fails: before any construction "mock" is unknown; one
    construction with a custom entry for "mock" changes the shared registry,
    and the next construction, given no custom entry, resolves "mock". *)
Lemma custom_entries_reach_later_instances :
  fst (TestLib.AssistantProcessor_init "mock" "gpt-4o" None
         TestLib.assistant_processor_implementations)
  = Raise (KeyError "mock")
  /\ TestLib.assistant_processor_implementations !! "mock" = None
  /\ registry_after_custom !! "mock" = Some MockImpl
  /\ fst (TestLib.AssistantProcessor_init "mock" "gpt-4o" None registry_after_custom)
     = Ret {| TestLib.processor := MockImpl; TestLib.processor_model := "gpt-4o" |}.
Proof. repeat split; reflexivity. Qed.

End ProviderRegistries.

(** * Further properties of the code *)

Section RetryEnvelopeMore.
Import OpenAIProvider Scenarios.

Ltac unfold_retry :=
  unfold with_retry_manager, Contextlib.async_with_return,
    Contextlib.aenter, Contextlib.aexit_normal, Contextlib.aexit_exc,
    retry_manager_anext, retry_manager_athrow, retry_manager_loop;
  run_eff.

(** The [async with retry_manager(...)] block, spelled out. *)
Lemma with_retry_manager_cases
    {A} (max_retries delay : Z) (body : Z -> M A) (rest : M A) (h : Log) :
  with_retry_manager max_retries delay body rest h
  = if (0 <? max_retries)%Z then
      match body 0%Z h with
      | (Ret a, h') => (Ret a, h')
      | (Raise e, h') =>
          if (1 <? max_retries)%Z
          then (Raise (RuntimeError "generator didn't stop after athrow()"),
                h' ++ [EvPrint "Retry attempt 1: " e; EvSleep delay])
          else (Raise (PyExceptionFrom
                         ("Operation failed after " +:+ pretty max_retries +:+ " retries")
                         e), h')
      | (Spinning, h') => (Spinning, h')
      end
    else (Raise (RuntimeError "generator didn't yield"), h).
Proof.
  unfold_retry.
  destruct (0 <? max_retries)%Z; [simpl|done].
  destruct (body 0%Z h) as [[a|e|] h']; simpl; [done| |done].
  change (0 + 1)%Z with 1%Z.
  destruct (1 <? max_retries)%Z; simpl; [|done].
  rewrite <- app_assoc. reflexivity.
Qed.

(** With [max_retries <= 0] the generator of [retry_manager] ends without
    a [yield]: the body of the [async with] block is never run and
    the block raises [RuntimeError("generator didn't yield")]. *)
Theorem retry_manager_nonpositive_skips_body
    {A} (max_retries delay : Z) (body : Z -> M A) (rest : M A) (h : Log) :
  (max_retries <= 0)%Z ->
  with_retry_manager max_retries delay body rest h
  = (Raise (RuntimeError "generator didn't yield"), h).
Proof.
  intros Hn. rewrite with_retry_manager_cases.
  destruct (0 <? max_retries)%Z eqn:Hlt; [lia | done].
Qed.

Lemma retry_manager_nonpositive_skips_body_witness :
  with_retry_manager 0 2 (fun _ => ret answer_new) (ret answer_old) []
  = (Raise (RuntimeError "generator didn't yield"), []).
Proof.
  apply (retry_manager_nonpositive_skips_body 0 2
           (fun _ => ret answer_new) (ret answer_old) []).
  lia.
Defined.

(** With [max_retries >= 1], a body that succeeds at its first run gives
    the block its own result and its own history: the context manager adds
    no call, no sleep and no print, and the body sees the attempt number 0. *)
Theorem retry_manager_success_is_transparent
    {A} (max_retries delay : Z) (body : Z -> M A) (rest : M A) (h h' : Log) (a : A) :
  (0 < max_retries)%Z ->
  body 0%Z h = (Ret a, h') ->
  with_retry_manager max_retries delay body rest h = (Ret a, h').
Proof.
  intros Hn Hbody. rewrite with_retry_manager_cases.
  destruct (0 <? max_retries)%Z eqn:Hlt; [|lia].
  by rewrite Hbody.
Qed.

Lemma retry_manager_success_is_transparent_witness :
  with_retry_manager 5 2
    (fun _ => _try_get_latest_assistant_message
                (impl (no_runs_client [greeting; answer_new])) "thread_1")
    (raise not_found) []
  = (Ret answer_new, [EvMessagesList "thread_1"]).
Proof.
  apply (retry_manager_success_is_transparent 5 2
           (fun _ => _try_get_latest_assistant_message
                       (impl (no_runs_client [greeting; answer_new])) "thread_1")
           (raise not_found) [] [EvMessagesList "thread_1"] answer_new).
  - lia.
  - reflexivity.
Defined.

(** With [max_retries >= 1], a body that fails at its first run is not run
    again.  For [max_retries = 1] the block raises "Operation failed after 1
    retries" chained to the body's exception; for [max_retries >= 2] the
    generator prints "Retry attempt 1", sleeps [delay] once and yields again,
    and the block raises [RuntimeError("generator didn't stop after
    athrow()")].  The code after the block is not reached in either case. *)
Theorem retry_manager_failure_ends_the_block
    {A} (max_retries delay : Z) (body : Z -> M A) (rest : M A) (h h' : Log) (e : Exn) :
  (0 < max_retries)%Z ->
  body 0%Z h = (Raise e, h') ->
  with_retry_manager max_retries delay body rest h
  = if (1 <? max_retries)%Z
    then (Raise (RuntimeError "generator didn't stop after athrow()"),
          h' ++ [EvPrint "Retry attempt 1: " e; EvSleep delay])
    else (Raise (PyExceptionFrom "Operation failed after 1 retries" e), h').
Proof.
  intros Hn Hbody. rewrite with_retry_manager_cases.
  destruct (0 <? max_retries)%Z eqn:Hlt; [|lia].
  rewrite Hbody.
  destruct (1 <? max_retries)%Z eqn:Hlt1; [done|].
  replace max_retries with 1%Z by lia. reflexivity.
Qed.

Lemma retry_manager_failure_ends_the_block_witness :
  with_retry_manager 4 7 (failing_body (APIError "down")) (ret answer_old) []
  = (Raise (RuntimeError "generator didn't stop after athrow()"),
     [EvPrint "Retry attempt 1: " (APIError "down"); EvSleep 7])
  /\ with_retry_manager 1 7 (failing_body (APIError "down")) (ret answer_old) []
     = (Raise (PyExceptionFrom "Operation failed after 1 retries" (APIError "down")), []).
Proof.
  split.
  - apply (retry_manager_failure_ends_the_block 4 7
             (failing_body (APIError "down")) (ret answer_old) [] [] (APIError "down")).
    + lia.
    + reflexivity.
  - apply (retry_manager_failure_ends_the_block 1 7
             (failing_body (APIError "down")) (ret answer_old) [] [] (APIError "down")).
    + lia.
    + reflexivity.
Defined.

Lemma try_get_latest_outcome self thread_id h :
  _try_get_latest_assistant_message self thread_id h
  = (match messages_list (client self) h thread_id with
     | Replied msgs =>
         match first_assistant msgs with
         | Some m => Ret m
         | None => Raise not_found
         end
     | Failed e => Raise e
     end, h ++ [EvMessagesList thread_id]).
Proof.
  unfold _try_get_latest_assistant_message, first_assistant. run_eff.
  destruct (messages_list (client self) h thread_id) as [msgs|e]; [|done].
  destruct msgs as [|x l]; [done|]. simpl truthy. cbv iota.
  by destruct (List.find _ (x :: l)).
Qed.

Lemma get_assistant_response_value self thread_id max_retries h :
  fst (get_assistant_response self thread_id max_retries h)
  = if (0 <? max_retries)%Z then
      match messages_list (client self) h thread_id with
      | Replied msgs => Ret (first_assistant msgs)
      | Failed _ => Ret None
      end
    else Ret None.
Proof.
  unfold get_assistant_response, try_except.
  rewrite with_retry_manager_cases. unfold bind at 1.
  rewrite try_get_latest_outcome.
  destruct (0 <? max_retries)%Z; [|done].
  destruct (messages_list (client self) h thread_id) as [msgs|e];
    [destruct (first_assistant msgs) as [m0|]|]; simpl; try done;
    by destruct (1 <? max_retries)%Z.
Qed.

(** [get_assistant_response] always returns: it neither raises nor waits
    for ever.  It returns a message exactly when [max_retries] is positive and
    the first listing of the thread succeeds and holds an assistant message;
    the message returned is then the first such message of that listing. *)
Theorem get_assistant_response_decided_by_first_listing
    (self : OpenAIAssistantImpl) (thread_id : string) (max_retries : Z) (h : Log) :
  (exists result, fst (get_assistant_response self thread_id max_retries h) = Ret result)
  /\ (forall m,
      fst (get_assistant_response self thread_id max_retries h) = Ret (Some m)
      <-> (0 < max_retries)%Z
          /\ exists msgs, messages_list (client self) h thread_id = Replied msgs
                          /\ first_assistant msgs = Some m).
Proof.
  rewrite get_assistant_response_value.
  destruct (0 <? max_retries)%Z eqn:Hpos.
  - apply Z.ltb_lt in Hpos.
    destruct (messages_list (client self) h thread_id) as [msgs|e].
    + split; [by eexists|]. intros m. split.
      * intros [= Hm]. split; [done|]. by exists msgs.
      * intros (_ & msgs' & [= <-] & Hm). by rewrite Hm.
    + split; [by eexists|]. intros m. split; [done|].
      by intros (_ & msgs' & [=] & _).
  - apply Z.ltb_ge in Hpos.
    split; [by exists None|].
    intros m. split; [done | intros [? _]; lia].
Qed.

Lemma get_assistant_response_decided_by_first_listing_witness :
  fst (get_assistant_response (impl (no_runs_client [greeting; answer_new; answer_old]))
         "thread_1" 3 [])
  = Ret (Some answer_new).
Proof.
  apply (proj2 (get_assistant_response_decided_by_first_listing
                  (impl (no_runs_client [greeting; answer_new; answer_old]))
                  "thread_1" 3 [])).
  split; [lia|].
  exists [greeting; answer_new; answer_old]. split; reflexivity.
Defined.

End RetryEnvelopeMore.

Section MessageLookupMore.
Import OpenAIProvider Scenarios.

Lemma first_assistant_split (msgs : list Message) (m : Message) :
  first_assistant msgs = Some m ->
  exists pre post,
    msgs = pre ++ m :: post
    /\ role m = "assistant"
    /\ Forall (fun x => role x ≠ "assistant") pre.
Proof.
  unfold first_assistant.
  induction msgs as [|x l IH]; simpl; [discriminate|].
  case_bool_decide as Hx.
  - intros [= <-]. by exists [], l.
  - intros Hfind. destruct (IH Hfind) as (pre & post & -> & Hm & Hpre).
    exists (x :: pre), post. split; [done|]. split; [done|]. by constructor.
Qed.

(** A message returned by [_try_get_latest_assistant_message] comes from
    the listing the service gave, has the role "assistant", and no message
    listed before it has that role.  When the listing call itself fails, the
    service's exception is raised as it is, not the "not found" one. *)
Theorem latest_assistant_message_comes_from_listing
    (self : OpenAIAssistantImpl) (thread_id : string) (h : Log) :
  (forall m,
      fst (_try_get_latest_assistant_message self thread_id h) = Ret m ->
      exists msgs pre post,
        messages_list (client self) h thread_id = Replied msgs
        /\ msgs = pre ++ m :: post
        /\ role m = "assistant"
        /\ Forall (fun x => role x ≠ "assistant") pre)
  /\ (forall e,
      messages_list (client self) h thread_id = Failed e ->
      _try_get_latest_assistant_message self thread_id h
      = (Raise e, h ++ [EvMessagesList thread_id])).
Proof.
  rewrite try_get_latest_outcome. split.
  - intros m. simpl.
    destruct (messages_list (client self) h thread_id) as [msgs|e]; [|discriminate].
    destruct (first_assistant msgs) as [m0|] eqn:Hfind; [|discriminate].
    intros [= <-]. destruct (first_assistant_split msgs m0 Hfind) as (pre & post & H).
    by exists msgs, pre, post.
  - by intros e ->.
Qed.

Lemma latest_assistant_message_comes_from_listing_witness :
  (exists msgs pre post,
      messages_list (client (impl (no_runs_client [greeting; answer_new]))) [] "thread_1"
      = Replied msgs
      /\ msgs = pre ++ answer_new :: post
      /\ role answer_new = "assistant"
      /\ Forall (fun x => role x ≠ "assistant") pre)
  /\ _try_get_latest_assistant_message (impl no_listing_client) "thread_1" []
     = (Raise (APIError "listing unavailable"), [EvMessagesList "thread_1"]).
Proof.
  split.
  - apply (proj1 (latest_assistant_message_comes_from_listing
                    (impl (no_runs_client [greeting; answer_new])) "thread_1" [])
             answer_new).
    reflexivity.
  - apply (proj2 (latest_assistant_message_comes_from_listing
                    (impl no_listing_client) "thread_1" [])
             (APIError "listing unavailable")).
    reflexivity.
Defined.

(** [get_thread_messages] never raises and lists the thread exactly once.
    It returns a list exactly when the listing succeeds with at least one
    message, and the list is then the one the service gave, in its order. *)
Theorem get_thread_messages_returns_the_listing
    (self : OpenAIAssistantImpl) (thread_id : string) (h : Log) :
  (exists result, fst (get_thread_messages self thread_id h) = Ret result)
  /\ count is_messages_list (snd (get_thread_messages self thread_id h))
     = count is_messages_list h + 1
  /\ (forall l,
      fst (get_thread_messages self thread_id h) = Ret (Some l)
      <-> messages_list (client self) h thread_id = Replied l /\ l ≠ []).
Proof.
  unfold get_thread_messages. run_eff.
  destruct (messages_list (client self) h thread_id) as [[|x msgs]|e]; simpl.
  - split; [by eexists|]. split.
    + rewrite count_app. unfold count. simpl. lia.
    + intros l. split; [discriminate|]. by intros [[= <-] Hne].
  - split; [by eexists|]. split.
    + rewrite count_app. unfold count. simpl. lia.
    + intros l. split.
      * by intros [= <-].
      * by intros [[= <-] _].
  - split; [by eexists|]. split.
    + rewrite !count_app. unfold count. simpl. lia.
    + intros l. split; [discriminate|]. by intros [[=] _].
Qed.

Lemma get_thread_messages_returns_the_listing_witness :
  fst (get_thread_messages (impl (no_runs_client [greeting; answer_new])) "thread_1" [])
  = Ret (Some [greeting; answer_new]).
Proof.
  apply (proj2 (proj2 (get_thread_messages_returns_the_listing
                         (impl (no_runs_client [greeting; answer_new])) "thread_1" []))
           [greeting; answer_new]).
  split; [reflexivity | discriminate].
Defined.

(** Given a thread object, [submit_tool_outputs] has no [except] clause of
    its own: what the service answers to the submission, a run or an
    exception, is what the caller gets.  The text submitted for every tool
    call is "None", whatever function and arguments the call names. *)
Theorem submit_tool_outputs_forwards_the_reply
    (self : OpenAIAssistantImpl) (run : Run) (t : Thread)
    (tool_calls : list ToolCall) (h : Log) :
  let batch := map (fun tc => {| tool_call_id := tool_call_id_attr tc; output := "None" |})
                   tool_calls in
  fst (submit_tool_outputs self run (ThreadObj t) tool_calls h)
  = match runs_submit_tool_outputs (client self) h (thread_id_attr t) (run_id run) batch with
    | Replied updated => Ret updated
    | Failed e => Raise e
    end
  /\ submitted_batches (snd (submit_tool_outputs self run (ThreadObj t) tool_calls h))
     = submitted_batches h ++ [batch].
Proof.
  intros batch. unfold submit_tool_outputs, bind.
  rewrite (tool_outputs_loop_appends self (ThreadObj t) tool_calls [] h). simpl.
  change (map entry_of tool_calls) with batch. unfold call.
  destruct (runs_submit_tool_outputs _ _ _ _ _); simpl;
    by rewrite submitted_batches_app.
Qed.

End MessageLookupMore.

Section RunPollingMore.
Import OpenAIProvider Scenarios.

(** A run that the service creates already "completed" is returned at once:
    [start_run] makes no poll and does not sleep, whatever bound is put on the
    loop. *)
Theorem start_run_created_completed_returns_at_once
    (fuel : nat) (self : OpenAIAssistantImpl) (thread_id assistant_id : string)
    (h : Log) (run : Run) :
  runs_create (client self) h thread_id assistant_id = Replied run ->
  status run = "completed" ->
  start_run fuel self thread_id assistant_id h
  = (Ret (Some run), h ++ [EvRunsCreate thread_id assistant_id]).
Proof.
  intros Hcreate Hst. unfold start_run, try_except, bind at 1. unfold call.
  rewrite Hcreate. unfold bind.
  destruct fuel; simpl; by rewrite (bool_decide_eq_true_2 _ Hst).
Qed.

Lemma start_run_created_completed_returns_at_once_witness :
  start_run 0
    (impl (mkClient (fun _ _ _ => Replied (mkRun "run_9" "completed" None))
             (fun _ _ _ => Failed (APIError "unused"))
             (fun _ _ _ _ => Failed (APIError "unused"))
             (fun _ _ _ _ => Failed (APIError "unused"))
             (fun _ _ => Failed (APIError "unused"))))
    "thread_1" "asst_1" []
  = (Ret (Some (mkRun "run_9" "completed" None)), [EvRunsCreate "thread_1" "asst_1"]).
Proof.
  apply (start_run_created_completed_returns_at_once 0
           (impl (mkClient (fun _ _ _ => Replied (mkRun "run_9" "completed" None))
                    (fun _ _ _ => Failed (APIError "unused"))
                    (fun _ _ _ _ => Failed (APIError "unused"))
                    (fun _ _ _ _ => Failed (APIError "unused"))
                    (fun _ _ => Failed (APIError "unused"))))
           "thread_1" "asst_1" [] (mkRun "run_9" "completed" None)).
  - reflexivity.
  - reflexivity.
Defined.

Lemma poll_rounds_cons thread_id rid rids :
  poll_rounds thread_id (rid :: rids)
  = [EvRunsRetrieve thread_id rid; EvSleep 1] ++ poll_rounds thread_id rids.
Proof. reflexivity. Qed.

(** The history the loop of [start_run] leaves, by outcome. *)
Lemma start_run_loop_history fuel self thread_id run h o h' :
  start_run_loop fuel self thread_id run h = (o, h') ->
  exists rids,
    match o with
    | Raise e =>
        exists rid, h' = h ++ poll_rounds thread_id rids ++ [EvRunsRetrieve thread_id rid]
    | _ => h' = h ++ poll_rounds thread_id rids
    end.
Proof.
  revert run h. induction fuel as [|fuel IH]; intros run h; simpl.
  - case_bool_decide; intros [= <- <-]; exists []; simpl; by rewrite app_nil_r.
  - case_bool_decide as Hst;
      [intros [= <- <-]; exists []; simpl; by rewrite app_nil_r|].
    unfold bind at 1. unfold call.
    destruct (runs_retrieve (client self) h thread_id (run_id run)) as [run'|e];
      [|intros [= <- <-]; exists []; simpl; by exists (run_id run)].
    unfold bind at 1.
    destruct (bool_decide (status run' = "requires_action")).
    + unfold bind at 1. unfold pending_tool_calls.
      destruct (required_action run') as [tool_calls|]; unfold ret, raise.
      * unfold bind at 1. rewrite submit_with_thread_id_raises.
        intros [= <- <-]. exists []. simpl. by exists (run_id run).
      * intros [= <- <-]. exists []. simpl. by exists (run_id run).
    + unfold ret at 1. unfold bind at 1. unfold sleep. intros Hloop.
      destruct (IH _ _ Hloop) as [rids Hrids].
      exists (run_id run :: rids). rewrite poll_rounds_cons.
      destruct o as [r|e|].
      * rewrite Hrids. by rewrite <- !app_assoc.
      * destruct Hrids as [rid Hrid]. exists rid. rewrite Hrid.
        by rewrite <- !app_assoc.
      * rewrite Hrids. by rewrite <- !app_assoc.
Qed.

(** The history of [start_run] has one shape: the creation of the run,
    then rounds of one poll followed by a sleep of one second.  When a run is
    returned, or while the loop is still going, nothing else was done; when
    [None] is returned, the history ends with the failed call (the creation
    or one more poll) and the printed error. *)
Theorem start_run_history_shape
    (fuel : nat) (self : OpenAIAssistantImpl) (thread_id assistant_id : string) (h : Log) :
  exists rids,
    match fst (start_run fuel self thread_id assistant_id h) with
    | Ret None =>
        exists e,
          snd (start_run fuel self thread_id assistant_id h)
          = h ++ [EvRunsCreate thread_id assistant_id; EvPrint "Error starting run: " e]
          \/ exists rid,
              snd (start_run fuel self thread_id assistant_id h)
              = h ++ EvRunsCreate thread_id assistant_id
                  :: poll_rounds thread_id rids
                  ++ [EvRunsRetrieve thread_id rid; EvPrint "Error starting run: " e]
    | _ =>
        snd (start_run fuel self thread_id assistant_id h)
        = h ++ EvRunsCreate thread_id assistant_id :: poll_rounds thread_id rids
    end.
Proof.
  destruct (start_run fuel self thread_id assistant_id h) as [o hfin] eqn:Hrun.
  revert Hrun. unfold start_run, try_except, bind at 1. unfold call.
  destruct (runs_create (client self) h thread_id assistant_id) as [run|e].
  - unfold bind.
    destruct (start_run_loop fuel self thread_id run _) as [o' h'] eqn:Hloop.
    destruct (start_run_loop_history _ _ _ _ _ _ _ Hloop) as [rids Hrids].
    destruct o' as [r|e|]; unfold print, ret; simpl; intros [= <- <-];
      exists rids; simpl.
    + rewrite Hrids. by rewrite <- app_assoc.
    + destruct Hrids as [rid ->]. exists e. right. exists rid.
      by rewrite <- !app_assoc.
    + rewrite Hrids. by rewrite <- app_assoc.
  - unfold bind, print, ret. simpl. intros [= <- <-]. exists []. simpl. exists e. left.
    by rewrite <- app_assoc.
Qed.

(** A run that the first poll reports "completed" is returned after that one
    poll and one more sleep of a second: the sleep comes before the loop
    looks at the status again. *)
Theorem start_run_sleeps_after_completed_poll
    (fuel : nat) (self : OpenAIAssistantImpl) (thread_id assistant_id : string)
    (h : Log) (created polled : Run) :
  runs_create (client self) h thread_id assistant_id = Replied created ->
  status created ≠ "completed" ->
  runs_retrieve (client self) (h ++ [EvRunsCreate thread_id assistant_id])
    thread_id (run_id created) = Replied polled ->
  status polled = "completed" ->
  start_run (S fuel) self thread_id assistant_id h
  = (Ret (Some polled),
     h ++ [ EvRunsCreate thread_id assistant_id;
            EvRunsRetrieve thread_id (run_id created);
            EvSleep 1 ]).
Proof.
  intros Hcreate Hqueued Hpoll Hdone.
  rewrite start_run_unfold, Hcreate.
  rewrite (start_run_loop_step _ _ _ _ _ Hqueued), Hpoll.
  rewrite bool_decide_eq_false_2 by (rewrite Hdone; discriminate).
  destruct fuel; simpl; rewrite (bool_decide_eq_true_2 _ Hdone);
    unfold ret; by rewrite <- !app_assoc.
Qed.

Lemma start_run_sleeps_after_completed_poll_witness :
  start_run 1 (impl (lifecycle_client ["completed"] [])) "thread_1" "asst_1" []
  = (Ret (Some (mkRun "run_1" "completed" None)),
     [ EvRunsCreate "thread_1" "asst_1"; EvRunsRetrieve "thread_1" "run_1"; EvSleep 1 ]).
Proof.
  apply (start_run_sleeps_after_completed_poll 0
           (impl (lifecycle_client ["completed"] [])) "thread_1" "asst_1" []
           (mkRun "run_1" "queued" None) (mkRun "run_1" "completed" None)).
  - reflexivity.
  - discriminate.
  - reflexivity.
  - reflexivity.
Defined.

(** [create_message] returns [None] exactly when the creation of the user
    message fails; in that case no run is started: the history gets the
    failed call and the printed error, nothing else.  The message is always
    posted with the role "user". *)
Theorem create_message_none_iff_post_failed
    (fuel : nat) (self : OpenAIAssistantImpl)
    (thread_id assistant_id content : string) (h : Log) :
  (fst (create_message fuel self thread_id assistant_id content h) = Ret None
   <-> exists e, messages_create (client self) h thread_id "user" content = Failed e)
  /\ (forall e,
      messages_create (client self) h thread_id "user" content = Failed e ->
      create_message fuel self thread_id assistant_id content h
      = (Ret None,
         h ++ [ EvMessagesCreate thread_id "user" content;
                EvPrint "Error creating message: " e ])).
Proof.
  rewrite create_message_unfold. split.
  - destruct (messages_create (client self) h thread_id "user" content) as [m|e].
    + pose proof (start_run_never_raises fuel self thread_id assistant_id
                    (h ++ [EvMessagesCreate thread_id "user" content])) as Hnr.
      destruct (start_run fuel self thread_id assistant_id _) as [[r|e|] h'];
        simpl in *; split; try discriminate; try (by intros [e' [=]]).
      by destruct (Hnr e).
    + split; [by exists e | done].
  - intros e ->. by rewrite <- app_assoc.
Qed.

Lemma create_message_none_iff_post_failed_witness :
  create_message 3
    (impl (mkClient (fun _ _ _ => Replied (mkRun "run_1" "completed" None))
             (fun _ _ _ => Failed (APIError "unused"))
             (fun _ _ _ _ => Failed (APIError "unused"))
             (fun _ _ _ _ => Failed (APIError "thread is locked"))
             (fun _ _ => Replied [])))
    "thread_1" "asst_1" "hello" []
  = (Ret None,
     [ EvMessagesCreate "thread_1" "user" "hello";
       EvPrint "Error creating message: " (APIError "thread is locked") ]).
Proof.
  apply (proj2 (create_message_none_iff_post_failed 3
                  (impl (mkClient (fun _ _ _ => Replied (mkRun "run_1" "completed" None))
                           (fun _ _ _ => Failed (APIError "unused"))
                           (fun _ _ _ _ => Failed (APIError "unused"))
                           (fun _ _ _ _ => Failed (APIError "thread is locked"))
                           (fun _ _ => Replied [])))
                  "thread_1" "asst_1" "hello" [])
           (APIError "thread is locked")).
  reflexivity.
Defined.

End RunPollingMore.

Section ThreadSetup.
Import OpenAIProvider OpenAIThreads Scenarios.











(** [get_or_create_thread] makes exactly one call and never raises.  Given
    an id it only retrieves: an id the service does not know gives [None] and
    no thread is created in its place.  Given no id it only creates. *)
Theorem get_or_create_thread_one_call
    (threads : ThreadsApi) (h : list ThreadEvent) :
  (forall id,
      get_or_create_thread threads (Some id) h
      = match threads_retrieve threads h id with
        | Replied t => (Ret (Some t), h ++ [EvThreadsRetrieve id])
        | Failed e =>
            (Ret None,
             h ++ [EvThreadsRetrieve id;
                   EvThreadsPrint "Error in get_or_create_thread: " e])
        end)
  /\ get_or_create_thread threads None h
     = match threads_create threads h with
       | Replied t => (Ret (Some t), h ++ [EvThreadsCreate])
       | Failed e =>
           (Ret None,
            h ++ [EvThreadsCreate; EvThreadsPrint "Error in get_or_create_thread: " e])
       end.
Proof.
  unfold get_or_create_thread, try_except, bind, thread_call, thread_print, ret.
  split; [intros id; destruct (threads_retrieve threads h id)
         | destruct (threads_create threads h)];
    simpl; by rewrite <- ?app_assoc.
Qed.

End ThreadSetup.

Section ProviderRegistriesMore.
Import Scenarios.

Lemma get_assistant_processor_registered create_client config
    (impls : gmap string Processor2.ImplClass) :
  is_Some (impls !! provider config) ->
  Processor2.get_assistant_processor create_client config impls
  = (Ret (OpenAIProvider.mkImpl (create_client (api_key config))
                                (config_assistant_id config)),
     impls).
Proof.
  intros [[] Hlook]. unfold Processor2.get_assistant_processor. run_eff.
  rewrite bool_decide_eq_false_2 by (rewrite Hlook; discriminate).
  by rewrite Hlook.
Qed.

(** [get_assistant_processor] resolves exactly the provider names the
    registry holds.  The processor it then builds holds the client made from
    the config's API key and the config's assistant id, and nothing else of
    the config: two configs that agree on these two fields and name
    registered providers give the same processor, whatever their model,
    provider name and function registry.  With the registry as the module
    first binds it, the only name that resolves is "openai". *)
Theorem get_assistant_processor_resolves_registered
    (create_client : string -> Client) (config : AssistantProcessorConfig)
    (impls : gmap string Processor2.ImplClass) :
  (is_Some (impls !! provider config)
   <-> fst (Processor2.get_assistant_processor create_client config impls)
       = Ret (OpenAIProvider.mkImpl (create_client (api_key config))
                                    (config_assistant_id config)))
  /\ (forall other,
      api_key other = api_key config ->
      config_assistant_id other = config_assistant_id config ->
      is_Some (impls !! provider config) ->
      is_Some (impls !! provider other) ->
      Processor2.get_assistant_processor create_client other impls
      = Processor2.get_assistant_processor create_client config impls)
  /\ (fst (Processor2.get_assistant_processor create_client config
             Processor2.processor_implementations)
      = Ret (OpenAIProvider.mkImpl (create_client (api_key config))
                                   (config_assistant_id config))
      <-> provider config = "openai").
Proof.
  assert (forall m : gmap string Processor2.ImplClass,
             is_Some (m !! provider config)
             <-> fst (Processor2.get_assistant_processor create_client config m)
                 = Ret (OpenAIProvider.mkImpl (create_client (api_key config))
                                              (config_assistant_id config)))
    as Hgen.
  { intros m. split.
    - intros Hreg. by rewrite get_assistant_processor_registered.
    - unfold Processor2.get_assistant_processor. run_eff.
      destruct (m !! provider config) as [cls|] eqn:Hlook; [by eexists|].
      rewrite bool_decide_eq_true_2 by done. discriminate. }
  split; [apply Hgen|]. split.
  - intros other Hkey Hid Hreg Hother.
    rewrite !get_assistant_processor_registered by done.
    by rewrite Hkey, Hid.
  - rewrite <- Hgen. unfold Processor2.processor_implementations, Processor2.OPENAI.
    split.
    + intros [cls Hcls]. apply lookup_singleton_Some in Hcls. by destruct Hcls.
    + intros ->. rewrite lookup_singleton_eq. by eexists.
Qed.

Lemma get_assistant_processor_resolves_registered_witness :
  fst (Processor2.get_assistant_processor offline (config_for "openai")
         Processor2.processor_implementations)
  = Ret (OpenAIProvider.mkImpl (offline "sk-test") None)
  /\ Processor2.get_assistant_processor offline
       (mkConfig "openai" "gpt-3.5-turbo" None "sk-test" None)
       Processor2.processor_implementations
     = Processor2.get_assistant_processor offline (config_for "openai")
         Processor2.processor_implementations.
Proof.
  split.
  - apply (proj2 (proj2 (proj2 (get_assistant_processor_resolves_registered
                                  offline (config_for "openai")
                                  Processor2.processor_implementations)))).
    reflexivity.
  - apply (proj1 (proj2 (get_assistant_processor_resolves_registered
                           offline (config_for "openai")
                           Processor2.processor_implementations))
             (mkConfig "openai" "gpt-3.5-turbo" None "sk-test" None)).
    + reflexivity.
    + reflexivity.
    + eexists. reflexivity.
    + eexists. reflexivity.
Defined.

(** In [test_lib.py], a custom entry wins over whatever the registry held
    for the same name, and it stays: the construction that supplies it gets
    the custom class, and so does a later construction for that name that
    supplies no custom entries. *)
Theorem custom_processor_shadows_registered
    (name model later_model : string)
    (custom impls : gmap string TestLib.ImplClass) (cls : TestLib.ImplClass) :
  custom !! name = Some cls ->
  (forall class_name, cls ≠ TestLib.CustomImpl class_name false) ->
  TestLib.AssistantProcessor_init name model (Some custom) impls
  = (Ret {| TestLib.processor := cls; TestLib.processor_model := model |},
     custom ∪ impls)
  /\ fst (TestLib.AssistantProcessor_init name later_model None (custom ∪ impls))
     = Ret {| TestLib.processor := cls; TestLib.processor_model := later_model |}.
Proof.
  intros Hcustom Hok.
  assert ((custom ∪ impls) !! name = Some cls) as Hlook
    by (by apply lookup_union_Some_l).
  unfold TestLib.AssistantProcessor_init. run_eff.
  rewrite (left_id_L ∅ (∪) (custom ∪ impls)), Hlook.
  split; destruct cls as [|class_name []]; simpl; try done;
    by destruct (Hok class_name).
Qed.

Lemma custom_processor_shadows_registered_witness :
  TestLib.AssistantProcessor_init "openai" "gpt-4o"
    (Some {[ "openai" := MockImpl ]}) TestLib.assistant_processor_implementations
  = (Ret {| TestLib.processor := MockImpl; TestLib.processor_model := "gpt-4o" |},
     {[ "openai" := MockImpl ]} ∪ TestLib.assistant_processor_implementations)
  /\ fst (TestLib.AssistantProcessor_init "openai" "gpt-3.5" None
            ({[ "openai" := MockImpl ]} ∪ TestLib.assistant_processor_implementations))
     = Ret {| TestLib.processor := MockImpl; TestLib.processor_model := "gpt-3.5" |}.
Proof.
  apply (custom_processor_shadows_registered "openai" "gpt-4o" "gpt-3.5"
           {[ "openai" := MockImpl ]} TestLib.assistant_processor_implementations
           MockImpl).
  - reflexivity.
  - discriminate.
Defined.

Lemma registry_after_construction name model custom
    (impls : gmap string TestLib.ImplClass) :
  snd (TestLib.AssistantProcessor_init name model custom impls)
  = default ∅ custom ∪ impls.
Proof.
  unfold TestLib.AssistantProcessor_init. run_eff.
  destruct ((default ∅ custom ∪ impls) !! name) as [[|class_name []]|]; done.
Qed.

(** A construction in [test_lib.py] never removes a registry entry: a name
    that resolved before still resolves, a name without a custom entry keeps
    its class, and a construction without custom entries leaves the registry
    as it was. *)
Theorem registry_entries_are_never_removed
    (name model : string) (custom : option (gmap string TestLib.ImplClass))
    (impls : gmap string TestLib.ImplClass) (key : string) :
  (is_Some (impls !! key) ->
   is_Some (snd (TestLib.AssistantProcessor_init name model custom impls) !! key))
  /\ (default ∅ custom !! key = None ->
      snd (TestLib.AssistantProcessor_init name model custom impls) !! key
      = impls !! key)
  /\ (default ∅ custom = ∅ ->
      snd (TestLib.AssistantProcessor_init name model custom impls) = impls).
Proof.
  rewrite registry_after_construction.
  split; [|split].
  - intros Hkey. apply lookup_union_is_Some. by right.
  - intros Hnone. by apply lookup_union_r.
  - intros ->. apply (left_id_L ∅ (∪)).
Qed.

Lemma registry_entries_are_never_removed_witness :
  is_Some (snd (TestLib.AssistantProcessor_init "mock" "gpt-4o" (Some custom_mock)
                  TestLib.assistant_processor_implementations) !! "openai")
  /\ snd (TestLib.AssistantProcessor_init "mock" "gpt-4o" (Some custom_mock)
            TestLib.assistant_processor_implementations) !! "openai"
     = TestLib.assistant_processor_implementations !! "openai"
  /\ snd (TestLib.AssistantProcessor_init "anthropic" "gpt-4o" None
            TestLib.assistant_processor_implementations)
     = TestLib.assistant_processor_implementations.
Proof.
  split; [|split].
  - apply (proj1 (registry_entries_are_never_removed "mock" "gpt-4o" (Some custom_mock)
                    TestLib.assistant_processor_implementations "openai")).
    eexists. reflexivity.
  - apply (proj1 (proj2 (registry_entries_are_never_removed "mock" "gpt-4o"
                           (Some custom_mock)
                           TestLib.assistant_processor_implementations "openai"))).
    reflexivity.
  - apply (proj2 (proj2 (registry_entries_are_never_removed "anthropic" "gpt-4o" None
                           TestLib.assistant_processor_implementations "openai"))).
    reflexivity.
Defined.

(** With the registry as [test_lib.py] first binds it and no custom
    entries, the processor constructed for "openai" answers [process(text)]
    with "[Formatted] AssistantTestImpl: " followed by the text, for every
    model name and every text; the text can be read back from the answer. *)
Theorem default_processor_formats_text
    (custom_process : string -> string -> Outcome string) (model text : string) :
  exists self,
    fst (TestLib.AssistantProcessor_init "openai" model None
           TestLib.assistant_processor_implementations) = Ret self
    /\ TestLibProcess.AssistantProcessor_process custom_process self text
       = Ret ("[Formatted] AssistantTestImpl: " +:+ text)
    /\ forall other,
         TestLibProcess.AssistantProcessor_process custom_process self other
         = TestLibProcess.AssistantProcessor_process custom_process self text ->
         other = text.
Proof.
  exists {| TestLib.processor := TestLib.AssistantTestImpl;
            TestLib.processor_model := model |}.
  split; [reflexivity|]. split; [reflexivity|].
  intros other. unfold TestLibProcess.AssistantProcessor_process. simpl.
  intros [= Heq]. exact Heq.
Qed.

End ProviderRegistriesMore.
